(** * segmentation_spleen_scribbles/main.py : the MyApp plugin

    A shallow embedding of [MyApp] (configuration parsing, the strategy and
    scoring registries, and the logits hand-off of [infer]) together with the
    properties of its specification.

    Python values are a small tagged union, dictionaries with string keys are
    [gmap string _], and the calls that leave the file (the datastore, the
    file system, the base class) are operations of a host interface; a run of
    [infer] threads the host's state, records every host call in a trace and
    ends either with a returned value or with a raised exception. *)

From Stdlib Require Import ZArith Floats Ascii String.
From stdpp Require Import gmap strings list fin_maps.

Local Open Scope string_scope.

(** ** Python values

    The values that travel through [infer]: identifiers, paths and tags
    are strings, requests, results and label listings are dictionaries
    with string keys. *)

#[warnings="-register-all"]
Inductive Val : Type :=
| VNone
| VBool (b : bool)
| VInt (z : Z)
| VStr (s : string)
| VDict (d : gmap string Val).

(** Truth value of an object, as tested by [if] and [and]. *)
Definition truthy (v : Val) : bool :=
  match v with
  | VNone => false
  | VBool b => b
  | VInt z => negb (Z.eqb z 0)
  | VStr s => negb (String.eqb s "")
  | VDict d => negb (Nat.eqb (size d) 0)
  end.

(** [d.get(key)] on a dictionary: [None] when the key is missing. *)
Definition dict_get (d : gmap string Val) (key : string) : Val :=
  default VNone (d !! key).

(** ** Exceptions and outcomes *)

Inductive Exn : Type :=
| KeyError (key : Val)
| AttributeError (attr : string)
| TypeError (msg : string)
| ValueError (msg : string)
| FileNotFoundError (path : string)
| HostError (code : Z).

Inductive Outcome (A : Type) : Type :=
| Returned (a : A)
| Raised (e : Exn).
Arguments Returned {A} a.
Arguments Raised {A} e.

Definition raised_by {A} (o : Outcome A) : option Exn :=
  match o with
  | Returned _ => None
  | Raised e => Some e
  end.

(** ** The host: datastore, file system and base class

    These are the collaborators of the plugin (monailabel's [Datastore], [os]
    and [MONAILabelApp.infer]).  Each one may change the host state, return
    any value or raise; the base call is handed the request dictionary
    itself and so also yields the dictionary as it left it.  The accessor
    [self.datastore()] is part of the datastore operation it precedes, and
    the two [logger.info] lines, which only format their argument, are not
    host calls. *)

Class Host (W : Type) : Type := {
  host_get_labels_by_image_id : Val -> W -> Outcome Val * W;
  host_get_label_uri : Val -> Val -> W -> Outcome Val * W;
  host_save_label : Val -> Val -> Val -> Val -> W -> Outcome Val * W;
  host_unlink : Val -> W -> Outcome unit * W;
  host_infer : gmap string Val -> W -> Outcome (Val * gmap string Val) * W
}.

(** A host call as it appears in a trace. *)
Inductive Call : Type :=
| get_labels_by_image_id (image_id : Val)
| get_label_uri (label_id label_tag : Val)
| save_label (image_id label_filename label_tag label_info : Val)
| unlink (path : Val)
| super_infer (request : gmap string Val).

(** An event is a call with the exception it raised, if any. *)
Definition Event : Type := Call * option Exn.

(** ** The monad of a run: host state, exceptions, trace *)

Section Run.
Context {W : Type}.

Definition M (A : Type) : Type := W -> Outcome A * W * list Event.

Definition ret {A} (a : A) : M A := fun w => (Returned a, w, []).

Definition raise {A} (e : Exn) : M A := fun w => (Raised e, w, []).

Definition bind {A B} (m : M A) (k : A -> M B) : M B :=
  fun w =>
    match m w with
    | (Returned a, w1, t1) =>
        match k a w1 with
        | (o, w2, t2) => (o, w2, (t1 ++ t2)%list)
        end
    | (Raised e, w1, t1) => (Raised e, w1, t1)
    end.

Definition perform {A} (c : Call) (h : W -> Outcome A * W) : M A :=
  fun w =>
    match h w with
    | (o, w1) => (o, w1, [(c, raised_by o)])
    end.
End Run.

Arguments M W A : clear implicits.

Notation "'let*' x ':=' m 'in' k" := (bind m (fun x => k))
  (at level 10, x pattern, m at level 100, k at level 200).

(** ** Inference tasks and their registry *)

(** [monailabel.interfaces.tasks.infer.InferType]. *)
Inductive InferType : Type :=
| SEGMENTATION
| CLASSIFICATION
| DEEPGROW
| DEEPEDIT
| SCRIBBLES
| OTHERS.

Definition InferType_eqb (a b : InferType) : bool :=
  match a, b with
  | SEGMENTATION, SEGMENTATION
  | CLASSIFICATION, CLASSIFICATION
  | DEEPGROW, DEEPGROW
  | DEEPEDIT, DEEPEDIT
  | SCRIBBLES, SCRIBBLES
  | OTHERS, OTHERS => true
  | _, _ => false
  end.

(** The one attribute of an [InferTask] that [infer] reads. *)
Record InferTask : Type := { type : InferType }.

(** The exception [registry[key]] raises for a key that selects nothing. *)
Definition lookup_error (key : Val) : Exn :=
  match key with
  | VDict _ => TypeError "unhashable type: 'dict'"
  | _ => KeyError key
  end.

(** [registry[key]] for a dictionary with string keys: a missing key raises
    [KeyError]; a dictionary is unhashable and raises [TypeError]. *)
Definition getitem {W A} (registry : gmap string A) (key : Val) : M W A :=
  match key with
  | VStr name =>
      match registry !! name with
      | Some a => ret a
      | None => raise (KeyError key)
      end
  | _ => raise (lookup_error key)
  end.

(** [v.get(key)]: defined on dictionaries only. *)
Definition py_get {W} (v : Val) (key : string) : M W Val :=
  match v with
  | VDict d => ret (dict_get d key)
  | _ => raise (AttributeError "get")
  end.

(** [v.items()]: defined on dictionaries only.  The keys of a dictionary
    are distinct, so the order in which the items come does not matter to a
    loop that acts on one key only. *)
Definition py_items {W} (v : Val) : M W (list (string * Val)) :=
  match v with
  | VDict d => ret (map_to_list d)
  | _ => raise (AttributeError "items")
  end.

(** [for x in xs: acc = body(x, acc)] with effects in the body. *)
Fixpoint for_each {W A S} (xs : list A) (body : A -> S -> M W S) (acc : S)
  : M W S :=
  match xs with
  | [] => ret acc
  | x :: xs' => let* acc' := body x acc in for_each xs' body acc'
  end.

(** ** Strategies and scoring methods *)

(** The strategy objects the file registers: [TTA()], [Random()] and
    [MyStrategy()]. *)
Inductive Strategy : Type :=
| TTA
| Random
| MyStrategy.

(** [load_from_mmar(mmar, model_dir)], kept as the call it is. *)
Record Network : Type := load_from_mmar {
  mmar_name : string;
  cache_dir : string
}.

(** [TTAScoring(model, network, num_samples, spatial_size, spacing)]. *)
Record ScoringMethod : Type := TTAScoring {
  model : string;
  network : Network;
  num_samples : Z;
  spatial_size : Z * Z * Z;
  spacing : float * float * float
}.

(** ** The application object *)

Record MyApp : Type := {
  model_dir : string;
  final_model : string;
  mmar : string;
  tta_enabled : Z;
  tta_samples : Z;
  _infers : gmap string InferTask
}.

Definition init_strategies (self : MyApp) : gmap string Strategy :=
  let strategies : gmap string Strategy := ∅ in
  let strategies :=
    if negb (Z.eqb (tta_enabled self) 0)
    then <["TTA" := TTA]> strategies
    else strategies in
  let strategies := <["random" := Random]> strategies in
  let strategies := <["first" := MyStrategy]> strategies in
  strategies.

Definition init_scoring_methods (self : MyApp) : gmap string ScoringMethod :=
  let methods : gmap string ScoringMethod := ∅ in
  let methods :=
    if negb (Z.eqb (tta_enabled self) 0)
    then <["TTA" := TTAScoring (final_model self)
                      (load_from_mmar (mmar self) (model_dir self))
                      (tta_samples self)
                      (128, 128, 64)%Z
                      (1, 1, 1)%float]> methods
    else methods in
  methods.

(** ** infer *)

Section Infer.
Context {W : Type} {host : Host W}.

(** The body of the [for tag, label in saved_labels.items()] loop. *)
Definition add_saved_logits (item : string * Val)
    (request : gmap string Val) : M W (gmap string Val) :=
  let '(tag, label) := item in
  if String.eqb tag "logits" then
    let* uri := perform (get_label_uri label (VStr tag))
                        (host_get_label_uri label (VStr tag)) in
    ret (<["logits" := uri]> request)
  else ret request.

(** What the loop comes to when the labels hold an entry tagged logits:
    one [get_label_uri] and one assignment. *)
Definition resolve_logits (label : Val) (request : gmap string Val)
  : M W (gmap string Val) :=
  let* uri := perform (get_label_uri label (VStr "logits"))
                      (host_get_label_uri label (VStr "logits")) in
  ret (<["logits" := uri]> request).

(** The first lines of [infer], up to the base call: the request as the
    base call is about to get it. *)
Definition request_for_base (self : MyApp) (request : gmap string Val)
  : M W (gmap string Val) :=
  let image := dict_get request "image" in
  (* add saved logits into request *)
  let* task := getitem (_infers self) (dict_get request "model") in
  if InferType_eqb (type task) SCRIBBLES then
    let* saved_labels := perform (get_labels_by_image_id image)
                                 (host_get_labels_by_image_id image) in
    let* items := py_items saved_labels in
    for_each items add_saved_logits request
  else ret request.

Definition infer (self : MyApp) (request : gmap string Val)
    (datastore : Val) : M W Val :=
  let image := dict_get request "image" in
  (* add saved logits into request *)
  let* task := getitem (_infers self) (dict_get request "model") in
  let* request :=
    if InferType_eqb (type task) SCRIBBLES then
      let* saved_labels := perform (get_labels_by_image_id image)
                                   (host_get_labels_by_image_id image) in
      let* items := py_items saved_labels in
      for_each items add_saved_logits request
    else ret request in
  let* (result, request) := perform (super_infer request)
                                    (host_infer request) in
  let* result_params := py_get result "params" in
  (* save logits *)
  let* logits := py_get result_params "logits" in
  let* save :=
    if truthy logits then
      let* task := getitem (_infers self) (dict_get request "model") in
      ret (InferType_eqb (type task) SEGMENTATION)
    else ret false in
  let* _ :=
    if (save : bool) then
      let* _ := perform (save_label image logits (VStr "logits") (VDict ∅))
                        (host_save_label image logits (VStr "logits")
                                         (VDict ∅)) in
      perform (unlink logits) (host_unlink logits)
    else ret tt in
  (* result_params.pop("logits", None): result_params is result["params"],
     so the entry goes from the result too; both are dictionaries here,
     the two calls of get above having succeeded *)
  match result, result_params with
  | VDict r, VDict p =>
      ret (VDict (<["params" := VDict (delete "logits" p)]> r))
  | _, _ => ret result
  end.
End Infer.

(** ** Configuration parsing *)

(** [str.lower()] on ASCII text.  The only character outside ASCII that
    [lower] sends into ASCII is the Kelvin sign (to [k]), a letter of none
    of the words [strtobool] tests for. *)
Definition lower_ascii (c : ascii) : ascii :=
  let n := N_of_ascii c in
  if (65 <=? n)%N && (n <=? 90)%N then ascii_of_N (n + 32) else c.

Fixpoint lower (s : string) : string :=
  match s with
  | EmptyString => EmptyString
  | String c s' => String (lower_ascii c) (lower s')
  end.

Definition member (x : string) (xs : list string) : bool :=
  existsb (String.eqb x) xs.

(** [distutils.util.strtobool]. *)
Definition strtobool (val : string) : Outcome Z :=
  let val := lower val in
  if member val ["y"; "yes"; "t"; "true"; "on"; "1"] then Returned 1%Z
  else if member val ["n"; "no"; "f"; "false"; "off"; "0"] then Returned 0%Z
  else Raised (ValueError "invalid truth value").

(** [int(s)] for a string [s], given by its UTF-8 bytes.

    As CPython does it: in a string with a character outside ASCII, the
    Unicode white space is first turned into spaces and the Unicode decimal
    digits into ASCII digits, any other such character being an error; then
    white space is skipped on both sides, a sign may lead, single
    underscores may separate the digits, and more than 4300 digits are
    refused (the default limit of integer string conversion). *)

(** The payload of a UTF-8 continuation byte. *)
Definition continuation_byte (c : ascii) : option N :=
  let n := N_of_ascii c in
  if (128 <=? n)%N && (n <=? 191)%N then Some (n - 128)%N else None.

(** The code points of UTF-8 text; [None] for bytes that are not UTF-8. *)
Fixpoint code_points (s : string) : option (list N) :=
  match s with
  | EmptyString => Some []
  | String c s1 =>
      let n := N_of_ascii c in
      if (n <? 128)%N then cons n <$> code_points s1
      else if (192 <=? n)%N && (n <? 224)%N then
        match s1 with
        | String c1 s2 =>
            match continuation_byte c1 with
            | Some a => cons ((n - 192) * 64 + a)%N <$> code_points s2
            | None => None
            end
        | _ => None
        end
      else if (224 <=? n)%N && (n <? 240)%N then
        match s1 with
        | String c1 (String c2 s3) =>
            match continuation_byte c1, continuation_byte c2 with
            | Some a, Some b =>
                cons ((n - 224) * 4096 + a * 64 + b)%N <$> code_points s3
            | _, _ => None
            end
        | _ => None
        end
      else if (240 <=? n)%N && (n <? 248)%N then
        match s1 with
        | String c1 (String c2 (String c3 s4)) =>
            match continuation_byte c1, continuation_byte c2,
                  continuation_byte c3 with
            | Some a, Some b, Some d =>
                cons ((n - 240) * 262144 + a * 4096 + b * 64 + d)%N
                  <$> code_points s4
            | _, _, _ => None
            end
        | _ => None
        end
      else None
  end.

(** The white space of [str.isspace] outside ASCII. *)
Definition unicode_spaces : list N :=
  [133; 160; 5760; 8192; 8193; 8194; 8195; 8196; 8197; 8198; 8199; 8200;
   8201; 8202; 8232; 8233; 8239; 8287; 12288]%N.

(** The code point of the digit zero of every run of ten decimal digits
    outside ASCII (Unicode 14.0). *)
Definition decimal_zeros : list N :=
  [1632; 1776; 1984; 2406; 2534; 2662; 2790; 2918; 3046; 3174; 3302; 3430;
   3558; 3664; 3792; 3872; 4160; 4240; 6112; 6160; 6470; 6608; 6784; 6800;
   6992; 7088; 7232; 7248; 42528; 43216; 43264; 43472; 43504; 43600; 44016;
   65296; 66720; 68912; 69734; 69872; 69942; 70096; 70384; 70736; 70864;
   71248; 71360; 71472; 71904; 72016; 72784; 73040; 73120; 92768; 92864;
   93008; 120782; 120792; 120802; 120812; 120822; 123200; 123632; 125264;
   130032]%N.

Definition unicode_decimal (cp : N) : option N :=
  (fun zero => cp - zero)%N
    <$> List.find (fun zero => (zero <=? cp)%N && (cp <? zero + 10)%N)
                  decimal_zeros.

(** What a character becomes before the digits are read: a character
    below 127 stays, white space becomes a space and a decimal digit its
    ASCII digit. *)
Definition ascii_of_code_point (cp : N) : option ascii :=
  if (cp <? 127)%N then Some (ascii_of_N cp)
  else if existsb (N.eqb cp) unicode_spaces then Some " "%char
  else (fun d => ascii_of_N (48 + d)) <$> unicode_decimal cp.

Fixpoint ascii_of_code_points (cps : list N) : option string :=
  match cps with
  | [] => Some EmptyString
  | cp :: cps' =>
      match ascii_of_code_point cp, ascii_of_code_points cps' with
      | Some c, Some s => Some (String c s)
      | _, _ => None
      end
  end.

Definition transform_decimal_and_space (s : string) : option string :=
  match code_points s with
  | Some cps => ascii_of_code_points cps
  | None => None
  end.

(** The white space the digit reader skips: C's [isspace]. *)
Definition is_space (c : ascii) : bool :=
  let n := N_of_ascii c in
  ((9 <=? n)%N && (n <=? 13)%N) || (n =? 32)%N.

Fixpoint lstrip (s : string) : string :=
  match s with
  | String c s' => if is_space c then lstrip s' else s
  | EmptyString => EmptyString
  end.

Definition digit_of (c : ascii) : option Z :=
  let n := N_of_ascii c in
  if (48 <=? n)%N && (n <=? 57)%N then Some (Z.of_N (n - 48)) else None.

(** The longest run of digits and underscores at the head of [s]: its
    value, the number of its digits and what follows it.  [None] for a run
    with no digit, with an underscore at either end or with two underscores
    in a row. *)
Fixpoint scan_digits (s : string) (acc : Z) (count : N) (after_digit : bool)
  : option (Z * N * string) :=
  match s with
  | EmptyString => if after_digit then Some (acc, count, EmptyString) else None
  | String c s' =>
      match digit_of c with
      | Some d => scan_digits s' (10 * acc + d)%Z (count + 1)%N true
      | None =>
          if Ascii.eqb c "_"%char then
            if after_digit then scan_digits s' acc count false else None
          else if after_digit then Some (acc, count, s) else None
      end
  end.

Definition py_int (s : string) : Outcome Z :=
  let invalid := Raised (ValueError "invalid literal for int() with base 10") in
  match transform_decimal_and_space s with
  | None => invalid
  | Some text =>
      let body := lstrip text in
      let '(negative, body) :=
        match body with
        | String "-"%char s' => (true, s')
        | String "+"%char s' => (false, s')
        | _ => (false, body)
        end in
      match scan_digits body 0 0 false with
      | None => invalid
      | Some (z, count, rest) =>
          if (4300 <? count)%N then
            Raised (ValueError
                      "Exceeds the limit (4300 digits) for integer string conversion")
          else
            match lstrip rest with
            | EmptyString => Returned (if negative : bool then - z else z)%Z
            | _ => invalid
            end
      end
  end.

(** [os.path.join(a, b)] on POSIX paths. *)
Definition ends_with_slash (s : string) : bool :=
  match rev (list_ascii_of_string s) with
  | c :: _ => Ascii.eqb c "/"%char
  | [] => false
  end.

Definition os_path_join (a b : string) : string :=
  match b with
  | String "/"%char _ => b
  | _ =>
      if String.eqb a "" || ends_with_slash a then a ++ b
      else a ++ "/" ++ b
  end.

(** [conf.get(key, default)] on the configuration, a dictionary of strings. *)
Definition conf_get (conf : gmap string string) (key dflt : string)
  : string :=
  default dflt (conf !! key).

(** [MyApp.__init__].  The base constructor stores the task registries it
    gets from the [init_*] methods; [infers] stands for what [init_infers]
    returns, whose task objects are built outside this file. *)
Definition __init__ (app_dir studies : string) (conf : gmap string string)
    (infers : gmap string InferTask) : Outcome MyApp :=
  let model_dir := os_path_join app_dir "model" in
  let final_model := os_path_join model_dir "model.pt" in
  let mmar := "clara_pt_spleen_ct_segmentation_1" in
  match strtobool (conf_get conf "tta_enabled" "false") with
  | Raised e => Raised e
  | Returned tta_enabled =>
      match py_int (conf_get conf "tta_samples" "5") with
      | Raised e => Raised e
      | Returned tta_samples =>
          Returned {| model_dir := model_dir;
                      final_model := final_model;
                      mmar := mmar;
                      tta_enabled := tta_enabled;
                      tta_samples := tta_samples;
                      _infers := infers |}
      end
  end.

(** The two registries the base constructor keeps for the application. *)
Definition _strategies (self : MyApp) : gmap string Strategy :=
  init_strategies self.

Definition _scoring_methods (self : MyApp) : gmap string ScoringMethod :=
  init_scoring_methods self.

(** ** Vocabulary of the specification *)

(** The task a request selects: the registry entry under its ["model"]. *)
Definition selected_task (self : MyApp) (request : gmap string Val)
  : option InferTask :=
  match dict_get request "model" with
  | VStr name => _infers self !! name
  | _ => None
  end.

Definition selected_kind (self : MyApp) (request : gmap string Val)
  : option InferType :=
  type <$> selected_task self request.

(** The requests handed to the base inference call during a run. *)
Fixpoint base_calls (t : list Event) : list (gmap string Val) :=
  match t with
  | [] => []
  | (super_infer request, _) :: t' => request :: base_calls t'
  | _ :: t' => base_calls t'
  end.


(** The words [strtobool] takes for true and for false. *)
Definition true_words : list string := ["y"; "yes"; "t"; "true"; "on"; "1"].
Definition false_words : list string := ["n"; "no"; "f"; "false"; "off"; "0"].

(** ** A reference host: labels and files in memory

    A small datastore over a set of existing paths, used to run [infer] on
    concrete requests.  [save_label] copies the given file into the store and
    files it under the image and tag; [unlink] removes an existing path. *)

Record Disk : Type := {
  labels : gmap string (gmap string string);
  files : gset string
}.

Definition mem_get_labels_by_image_id (image_id : Val) (w : Disk)
  : Outcome Val * Disk :=
  match image_id with
  | VStr i => (Returned (VDict (VStr <$> default ∅ (labels w !! i))), w)
  | _ => (Raised (TypeError "image id"), w)
  end.

Definition mem_get_label_uri (label_id label_tag : Val) (w : Disk)
  : Outcome Val * Disk :=
  match label_id with
  | VStr l =>
      if bool_decide (l ∈ files w) then (Returned (VStr l), w)
      else (Raised (FileNotFoundError l), w)
  | _ => (Raised (TypeError "label id"), w)
  end.

Definition mem_save_label (image_id label_filename label_tag label_info : Val)
    (w : Disk) : Outcome Val * Disk :=
  match image_id, label_filename, label_tag with
  | VStr i, VStr f, VStr tag =>
      if bool_decide (f ∈ files w) then
        let dest := "labels/" ++ tag ++ "/" ++ i in
        (Returned (VStr dest),
         {| labels := <[i := <[tag := dest]> (default ∅ (labels w !! i))]>
                        (labels w);
            files := {[dest]} ∪ files w |})
      else (Raised (FileNotFoundError f), w)
  | _, _, _ => (Raised (TypeError "save_label"), w)
  end.

Definition mem_unlink (path : Val) (w : Disk) : Outcome unit * Disk :=
  match path with
  | VStr p =>
      if bool_decide (p ∈ files w) then
        (Returned tt, {| labels := labels w; files := files w ∖ {[p]} |})
      else (Raised (FileNotFoundError p), w)
  | _ => (Raised (TypeError "path"), w)
  end.

(** The base call of the reference host: the segmentation task writes its
    logits to [logits_path] (an empty path names no file) and reports the
    path in [params]; every other task reports empty [params].  The request
    is left as it was. *)
Definition mem_infer (logits_path : Val) (request : gmap string Val)
    (w : Disk) : Outcome (Val * gmap string Val) * Disk :=
  let segmentation :=
    match dict_get request "model" with
    | VStr name => String.eqb name "Spleen_Segmentation"
    | _ => false
    end in
  if segmentation then
    let w' :=
      match logits_path with
      | VStr p =>
          if String.eqb p "" then w
          else {| labels := labels w; files := {[p]} ∪ files w |}
      | _ => w
      end in
    (Returned (VDict (<["label" := VStr "/tmp/seg.nii.gz"]>
                       (<["params" := VDict {["logits" := logits_path]}]> ∅)),
               request), w')
  else
    (Returned (VDict (<["label" := VStr "/tmp/out.nii.gz"]>
                       (<["params" := VDict ∅]> ∅)),
               request), w).

Definition mem_host (logits_path : Val) : Host Disk := {|
  host_get_labels_by_image_id := mem_get_labels_by_image_id;
  host_get_label_uri := mem_get_label_uri;
  host_save_label := mem_save_label;
  host_unlink := mem_unlink;
  host_infer := mem_infer logits_path
|}.

(** Sample data for concrete runs. *)
Definition sample_infers : gmap string InferTask :=
  <["Spleen_Segmentation" := {| type := SEGMENTATION |}]>
    (<["Histogram+GraphCut" := {| type := SCRIBBLES |}]>
       (<["deepgrow_2d" := {| type := DEEPGROW |}]> ∅)).

Definition sample_app : MyApp := {|
  model_dir := "/apps/spleen/model";
  final_model := "/apps/spleen/model/model.pt";
  mmar := "clara_pt_spleen_ct_segmentation_1";
  tta_enabled := 0;
  tta_samples := 5;
  _infers := sample_infers
|}.

Definition tta_app : MyApp := {|
  model_dir := "/apps/spleen/model";
  final_model := "/apps/spleen/model/model.pt";
  mmar := "clara_pt_spleen_ct_segmentation_1";
  tta_enabled := 1;
  tta_samples := 5;
  _infers := sample_infers
|}.

Definition sample_request (model_name : string) : gmap string Val :=
  <["image" := VStr "spleen_10"]> (<["model" := VStr model_name]> ∅).

Definition empty_disk : Disk := {| labels := ∅; files := ∅ |}.

(** The state of a run and the three components of its result. *)
Definition outcome_of {A W} (r : Outcome A * W * list Event) : Outcome A :=
  r.1.1.
Definition state_of {A W} (r : Outcome A * W * list Event) : W := r.1.2.
Definition trace_of {A W} (r : Outcome A * W * list Event) : list Event :=
  r.2.

(** ** Statements of the specification *)

(** The [params] of a result, and a result whose [params] have no logits. *)
Definition params_of (result : Val) : option (gmap string Val) :=
  match result with
  | VDict r =>
      match r !! "params" with
      | Some (VDict p) => Some p
      | _ => None
      end
  | _ => None
  end.

Definition has_no_logits (result : Val) : Prop :=
  exists p, params_of result = Some p /\ p !! "logits" = None.

Section Statements.
Context {W : Type} {host : Host W}.




(** The outcome the specification promises for a segmentation run whose
    base result is [r] with [params] [p] holding [logits]: the label is
    saved, then the file is removed, and the result comes back without
    the logits entry. *)
Definition saved_then_removed (request : gmap string Val) (w1 : W)
    (r p : gmap string Val) (logits result : Val) (w' : W)
    (t : list Event) : Prop :=
  let image := dict_get request "image" in
  exists label_id w2,
    host_save_label image logits (VStr "logits") (VDict ∅) w1
      = (Returned label_id, w2) /\
    host_unlink logits w2 = (Returned tt, w') /\
    t = [(super_infer request, None);
         (save_label image logits (VStr "logits") (VDict ∅), None);
         (unlink logits, None)] /\
    result = VDict (<["params" := VDict (delete "logits" p)]> r) /\
    has_no_logits result.

(** A run in which a failing host call ends the run: the exception of
    the call is the outcome and the call is the last event. *)
Definition fails_last {A} (r : Outcome A * W * list Event) : Prop :=
  forall c e,
    (c, Some e) ∈ r.2 ->
    r.1.1 = Raised e /\ last r.2 = Some (c, Some e).

Definition propagates {A} (m : M W A) : Prop :=
  forall w, fails_last (m w).

End Statements.

(** The sentence about the TTA flag, read for every configuration value. *)
Definition tta_only_for_true (conf : gmap string string) : Prop :=
  forall app_dir studies infers self,
    __init__ app_dir studies conf infers = Returned self ->
    (conf !! "tta_enabled" = Some "true" ->
     is_Some (_strategies self !! "TTA") /\
     is_Some (_scoring_methods self !! "TTA")) /\
    (conf !! "tta_enabled" <> Some "true" ->
     _strategies self !! "TTA" = None /\
     _scoring_methods self !! "TTA" = None).

(** Sample states: a disk holding a saved logits label, and one whose
    label file has gone missing. *)
Definition disk_with_logits : Disk := {|
  labels := {["spleen_10" := {["logits" := "labels/logits/spleen_10"]}]};
  files := {["labels/logits/spleen_10"]}
|}.


Definition disk_with_stale_label : Disk := {|
  labels := {["spleen_10" := {["logits" := "labels/logits/spleen_10"]}]};
  files := ∅
|}.

(** Sample runs on the reference host. *)
Definition logits_file : Val := VStr "/tmp/logits.nii.gz".

Definition segmentation_request : gmap string Val :=
  sample_request "Spleen_Segmentation".

Definition scribbles_request : gmap string Val :=
  sample_request "Histogram+GraphCut".

Definition segmentation_run : Outcome Val * Disk * list Event :=
  infer (host := mem_host logits_file) sample_app segmentation_request VNone
        empty_disk.

Definition scribbles_run : Outcome Val * Disk * list Event :=
  infer (host := mem_host logits_file) sample_app scribbles_request VNone
        disk_with_logits.

Definition stale_scribbles_run : Outcome Val * Disk * list Event :=
  infer (host := mem_host logits_file) sample_app scribbles_request VNone
        disk_with_stale_label.

Definition empty_path_run : Outcome Val * Disk * list Event :=
  infer (host := mem_host (VStr "")) sample_app segmentation_request VNone
        empty_disk.

(** ** The registries of inference and training tasks

    The task classes come from [lib] and from monailabel; each one is kept
    as the constructor call the source makes, and [deepgrow_infer_tasks] as
    the base-class method it is. *)

Class TaskClasses : Type := {
  SegmentationWithWriteLogits : string -> Network -> InferTask;
  HistogramBasedGraphCut : InferTask;
  SpleenMIDeepSeg : InferTask;
  SpleenISegGraphCut : InferTask;
  SpleenISegCRF : InferTask;
  SpleenISegSimpleCRF : InferTask;
  deepgrow_infer_tasks : string -> gmap string InferTask
}.

(** [d.update(other)]: the entries of [other] replace those of [d]. *)
Definition dict_update {A} (d other : gmap string A) : gmap string A :=
  other ∪ d.

Definition init_infers {classes : TaskClasses} (self : MyApp)
  : gmap string InferTask :=
  let infers : gmap string InferTask :=
    <["Spleen_Segmentation" :=
        SegmentationWithWriteLogits
          (final_model self) (load_from_mmar (mmar self) (model_dir self))]>
    (<["Histogram+GraphCut" := HistogramBasedGraphCut]>
    (<["MIDeepSeg" := SpleenMIDeepSeg]>
    (<["ISeg+GraphCut" := SpleenISegGraphCut]>
    (<["ISeg+MONAICRF" := SpleenISegCRF]>
    (<["ISeg+SimpleCRF" := SpleenISegSimpleCRF]> ∅))))) in
  (* Simple way to Add deepgrow 2D+3D models for infer tasks *)
  let infers := dict_update infers (deepgrow_infer_tasks (model_dir self)) in
  infers.

(** [MyTrain(model_dir, network, publish_path=...)]. *)
Record TrainTask : Type := MyTrain {
  train_model_dir : string;
  train_network : Network;
  publish_path : string
}.

Definition init_trainers (self : MyApp) : gmap string TrainTask :=
  {["segmentation_spleen" :=
      MyTrain (model_dir self)
              (load_from_mmar (mmar self) (model_dir self))
              (final_model self)]}.

(** The names [init_infers] registers itself. *)
Definition spleen_infer_names : list string :=
  ["Spleen_Segmentation"; "Histogram+GraphCut"; "MIDeepSeg"; "ISeg+GraphCut";
   "ISeg+MONAICRF"; "ISeg+SimpleCRF"].

(** ** The order of the host calls *)

(** The place of a host call in the text of [infer]. *)
Definition phase (c : Call) : nat :=
  match c with
  | get_labels_by_image_id _ => 0
  | get_label_uri _ _ => 1
  | super_infer _ => 2
  | save_label _ _ _ _ => 3
  | unlink _ => 4
  end.

Fixpoint ascending (ns : list nat) : bool :=
  match ns with
  | n :: ((m :: _) as rest) => Nat.ltb n m && ascending rest
  | _ => true
  end.

(** The two datastore operations that read the saved labels. *)
Definition reads_datastore (c : Call) : bool :=
  match c with
  | get_labels_by_image_id _ | get_label_uri _ _ => true
  | _ => false
  end.

(** ** Hosts with a fixed base result

    [stub_host result unlink_error] answers every base call with [result],
    leaving the request as it was, keeps labels and files as the reference
    host does, and makes [unlink] raise [unlink_error] when one is given. *)
Definition stub_unlink (unlink_error : option Exn) (path : Val) (w : Disk)
  : Outcome unit * Disk :=
  match unlink_error with
  | Some e => (Raised e, w)
  | None => mem_unlink path w
  end.

Definition stub_infer (result : Val) (request : gmap string Val) (w : Disk)
  : Outcome (Val * gmap string Val) * Disk :=
  (Returned (result, request), w).

Definition stub_host (result : Val) (unlink_error : option Exn)
  : Host Disk := {|
  host_get_labels_by_image_id := mem_get_labels_by_image_id;
  host_get_label_uri := mem_get_label_uri;
  host_save_label := mem_save_label;
  host_unlink := stub_unlink unlink_error;
  host_infer := stub_infer result
|}.

(** Task classes for concrete registries. *)
Definition sample_classes : TaskClasses := {|
  SegmentationWithWriteLogits := fun _ _ => {| type := SEGMENTATION |};
  HistogramBasedGraphCut := {| type := SCRIBBLES |};
  SpleenMIDeepSeg := {| type := SCRIBBLES |};
  SpleenISegGraphCut := {| type := SCRIBBLES |};
  SpleenISegCRF := {| type := SCRIBBLES |};
  SpleenISegSimpleCRF := {| type := SCRIBBLES |};
  deepgrow_infer_tasks := fun _ =>
    <["deepgrow_2d" := {| type := DEEPGROW |}]>
      (<["deepgrow_3d" := {| type := DEEPGROW |}]> ∅)
|}.

Definition full_app : MyApp := {|
  model_dir := "/apps/spleen/model";
  final_model := "/apps/spleen/model/model.pt";
  mmar := "clara_pt_spleen_ct_segmentation_1";
  tta_enabled := 0;
  tta_samples := 5;
  _infers := init_infers (classes := sample_classes) sample_app
|}.

Definition deepgrow_request : gmap string Val := sample_request "deepgrow_2d".

Definition disk_with_temp_file : Disk :=
  {| labels := ∅; files := {["/tmp/logits.nii.gz"]} |}.

Definition result_with_logits (logits : Val) : Val :=
  VDict (<["label" := VStr "/tmp/seg.nii.gz"]>
           (<["params" := VDict (<["latency" := VInt 12]>
                                   {["logits" := logits]})]> ∅)).

(** * Properties *)

(** ** Parsing and path helpers on sample inputs *)

Example strtobool_false : strtobool "false" = Returned 0%Z.
Proof. reflexivity. Qed.
Example strtobool_true : strtobool "true" = Returned 1%Z.
Proof. reflexivity. Qed.
Example strtobool_Yes : strtobool "Yes" = Returned 1%Z.
Proof. reflexivity. Qed.
Example strtobool_maybe : raised_by (strtobool "maybe") <> None.
Proof. discriminate. Qed.
Example py_int_5 : py_int "5" = Returned 5%Z.
Proof. vm_compute. reflexivity. Qed.
Example py_int_spaces : py_int " -1_000 " = Returned (-1000)%Z.
Proof. vm_compute. reflexivity. Qed.
Example py_int_bad : raised_by (py_int "5_") <> None.
Proof. vm_compute. discriminate. Qed.
Example py_int_separator :
  raised_by (py_int (String (ascii_of_N 28) "5")) <> None.
Proof. vm_compute. discriminate. Qed.
Example py_int_arabic_indic :
  py_int (String (ascii_of_N 217) (String (ascii_of_N 165) "")) = Returned 5%Z.
Proof. vm_compute. reflexivity. Qed.
Example py_int_no_break_space :
  py_int (String (ascii_of_N 194) (String (ascii_of_N 160) "12"))
  = Returned 12%Z.
Proof. vm_compute. reflexivity. Qed.
Example join_model : os_path_join "/apps/spleen" "model" = "/apps/spleen/model".
Proof. reflexivity. Qed.

(** ** The registry lookup *)

Section InferFacts.
Context {W : Type} {host : Host W}.
Implicit Types (self : MyApp) (request : gmap string Val) (w : W).

Lemma getitem_selected self request w :
  getitem (_infers self) (dict_get request "model") w =
  match selected_task self request with
  | Some task => (Returned task, w, [])
  | None => (Raised (lookup_error (dict_get request "model")), w, [])
  end.
Proof.
  unfold getitem, selected_task, lookup_error.
  destruct (dict_get request "model") as [| | |name|]; try reflexivity.
  destruct (_infers self !! name); reflexivity.
Qed.

(** *** Equations of the monad *)

Lemma bind_ret {A B} (a : A) (k : A -> M W B) w :
  bind (ret a) k w = k a w.
Proof. unfold bind, ret. by destruct (k a w) as [[o w1] t]. Qed.

Lemma bind_raise {A B} (e : Exn) (k : A -> M W B) w :
  bind (raise e) k w = (Raised e, w, []).
Proof. reflexivity. Qed.

Lemma bind_perform {A B} c (h : W -> Outcome A * W) (k : A -> M W B) w :
  bind (perform c h) k w =
  match h w with
  | (Returned a, w1) =>
      match k a w1 with
      | (o, w2, t2) => (o, w2, (c, None) :: t2)
      end
  | (Raised e, w1) => (Raised e, w1, [(c, Some e)])
  end.
Proof. unfold bind, perform. by destruct (h w) as [[a|e] w1]. Qed.

(** *** The loop over the saved labels *)

Lemma add_saved_logits_other tag label request :
  tag <> "logits" -> add_saved_logits (tag, label) request = ret request.
Proof.
  intros Hne. unfold add_saved_logits.
  by destruct (String.eqb_spec tag "logits").
Qed.

Lemma add_saved_logits_logits label request :
  add_saved_logits ("logits", label) request = resolve_logits label request.
Proof. reflexivity. Qed.

Lemma for_each_without_logits (items : list (string * Val)) request w :
  "logits" ∉ items.*1 ->
  for_each items add_saved_logits request w = (Returned request, w, []).
Proof.
  induction items as [|[tag label] items IH]; intros Hnot; [reflexivity|].
  rewrite fmap_cons in Hnot. apply not_elem_of_cons in Hnot as [Hne Hrest].
  simpl in Hne. cbn [for_each].
  rewrite add_saved_logits_other by done.
  rewrite bind_ret. by apply IH.
Qed.

Lemma for_each_with_logits (items : list (string * Val)) label request w :
  NoDup items.*1 ->
  ("logits", label) ∈ items ->
  for_each items add_saved_logits request w = resolve_logits label request w.
Proof.
  induction items as [|[tag lbl] items IH]; intros Hnd Hin.
  - by apply elem_of_nil in Hin.
  - rewrite fmap_cons in Hnd. apply NoDup_cons in Hnd as [Hfresh Hnd].
    simpl in Hfresh. cbn [for_each].
    apply elem_of_cons in Hin as [Heq|Hin].
    + injection Heq as <- <-.
      rewrite add_saved_logits_logits. unfold resolve_logits.
      unfold bind at 1. rewrite !bind_perform.
      destruct (host_get_label_uri label (VStr "logits") w) as [[uri|e] w1];
        [|reflexivity].
      unfold ret at 2. unfold ret at 1.
      by rewrite (for_each_without_logits _ _ _ Hfresh).
    + assert (tag <> "logits") as Hne.
      { intros ->. apply Hfresh.
        change "logits" with (("logits", label).1).
        by apply list_elem_of_fmap_2. }
      rewrite add_saved_logits_other by done.
      rewrite bind_ret. by apply IH.
Qed.

Lemma saved_labels_loop (d : gmap string Val) request w :
  for_each (map_to_list d) add_saved_logits request w =
  match d !! "logits" with
  | Some label => resolve_logits label request w
  | None => (Returned request, w, [])
  end.
Proof.
  destruct (d !! "logits") as [label|] eqn:Hd.
  - apply for_each_with_logits.
    + apply NoDup_fst_map_to_list.
    + by apply elem_of_map_to_list.
  - apply for_each_without_logits.
    intros Hin. apply list_elem_of_fmap in Hin as [[tag label] [Htag Hin]].
    simpl in Htag. subst tag. apply elem_of_map_to_list in Hin. congruence.
Qed.
End InferFacts.

(** ** Running infer *)

(** Symbolic execution of one run: unfold the monad, use the equations at
    hand, and split on every other value the control flow inspects. *)
Ltac use_known :=
  match goal with
  | H : ?x = _ |- context [match ?x with _ => _ end] => rewrite H
  | H : ?x = _, H' : context [match ?x with _ => _ end] |- _ =>
      rewrite H in H'
  end.

Ltac run_infer :=
  unfold infer, py_get, py_items, bind, perform, ret, raise in *;
  repeat (first [ rewrite getitem_selected in *
                | rewrite saved_labels_loop in *
                | use_known
                | case_match ];
          unfold resolve_logits, bind, perform, ret, raise in *;
          simplify_eq/=).

Section InferProperties.
Context {W : Type} {host : Host W}.
Implicit Types (self : MyApp) (request : gmap string Val) (w : W).

Lemma bind_returned {A B} (m : M W A) (k : A -> M W B) w a w1 t1 :
  m w = (Returned a, w1, t1) ->
  bind m k w =
  match k a w1 with
  | (o, w2, t2) => (o, w2, (t1 ++ t2)%list)
  end.
Proof. intros H. unfold bind. by rewrite H. Qed.

Lemma bind_raised {A B} (m : M W A) (k : A -> M W B) w e w1 t1 :
  m w = (Raised e, w1, t1) -> bind m k w = (Raised e, w1, t1).
Proof. intros H. unfold bind. by rewrite H. Qed.

Lemma selected_kind_task self request kind :
  selected_kind self request = Some kind ->
  exists task, selected_task self request = Some task /\ type task = kind.
Proof.
  unfold selected_kind. destruct (selected_task self request) as [task|];
    intros [= <-]; eauto.
Qed.

Lemma selected_kind_insert_logits self request uri :
  selected_kind self (<["logits" := uri]> request)
  = selected_kind self request.
Proof.
  unfold selected_kind, selected_task, dict_get.
  by rewrite lookup_insert_ne.
Qed.

(** [C9] A request whose ["model"] value is missing from the registry of
    infer tasks (or is absent from the request) makes [infer] fail on the
    first registry lookup: the exception is the lookup's, no host call has
    been made (so nothing was delegated to the base call) and the host
    state is the one the call started from. *)
Theorem infer_unknown_model_fails_first self request datastore w :
  selected_task self request = None ->
  infer self request datastore w
  = (Raised (lookup_error (dict_get request "model")), w, []).
Proof.
  intros Hsel. unfold infer.
  apply bind_raised. by rewrite getitem_selected, Hsel.
Qed.

(** [C10] The [datastore] argument has no influence on a run: for any two
    values of it, [infer] makes the same host calls from the same state,
    hands the same request to the base call and ends with the same
    outcome and state. *)
Theorem infer_ignores_datastore_argument self request datastore1 datastore2 w :
  let run1 := infer self request datastore1 w in
  let run2 := infer self request datastore2 w in
  trace_of run1 = trace_of run2 /\
  base_calls (trace_of run1) = base_calls (trace_of run2) /\
  outcome_of run1 = outcome_of run2 /\
  state_of run1 = state_of run2.
Proof.
  intros run1 run2.
  assert (run1 = run2) as -> by reflexivity.
  by repeat split.
Qed.

(** [C3] Whatever the kind of the selected task, and whether or not a
    logits value was saved, a result that [infer] returns is a dictionary
    whose [params] dictionary has no logits key. *)
Theorem infer_result_has_no_logits self request datastore w result w' t :
  infer self request datastore w = (Returned result, w', t) ->
  has_no_logits result.
Proof.
  intros Hrun. run_infer;
    unfold has_no_logits, params_of;
    rewrite lookup_insert_eq;
    (eexists; split; [reflexivity | apply lookup_delete_eq]).
Qed.

(** [C2] When the selected task is of kind SCRIBBLES and the datastore
    lists a label tagged logits for the request's image, whose URI the
    datastore resolves, the base inference call is made once, with the
    request extended by a logits entry holding that URI. *)
Theorem scribbles_request_carries_saved_logits
    self request datastore w d w1 label uri w2 :
  selected_kind self request = Some SCRIBBLES ->
  host_get_labels_by_image_id (dict_get request "image") w
    = (Returned (VDict d), w1) ->
  d !! "logits" = Some label ->
  host_get_label_uri label (VStr "logits") w1 = (Returned uri, w2) ->
  base_calls (trace_of (infer self request datastore w))
    = [<["logits" := uri]> request] /\
  (<["logits" := uri]> request) !! "logits" = Some uri.
Proof.
  intros Hkind Hlabels Hd Huri.
  apply selected_kind_task in Hkind as ([kind] & Htask & Htype).
  simpl in Htype. subst kind.
  split; [|apply lookup_insert_eq].
  unfold trace_of. run_infer; reflexivity.
Qed.

(** [C4] When the selected task is of kind SCRIBBLES and the datastore
    lists no label tagged logits for the request's image, the base
    inference call is made once, with the request exactly as [infer]
    received it. *)
Theorem scribbles_request_unmodified_without_logits
    self request datastore w d w1 :
  selected_kind self request = Some SCRIBBLES ->
  host_get_labels_by_image_id (dict_get request "image") w
    = (Returned (VDict d), w1) ->
  d !! "logits" = None ->
  base_calls (trace_of (infer self request datastore w)) = [request].
Proof.
  intros Hkind Hlabels Hd.
  apply selected_kind_task in Hkind as ([kind] & Htask & Htype).
  simpl in Htype. subst kind.
  unfold trace_of. run_infer; reflexivity.
Qed.
End InferProperties.

(** ** Exceptions of the host *)

Create HintDb propagation.

Section Propagation.
Context {W : Type} {host : Host W}.

Lemma propagates_ret {A} (a : A) : propagates (W:=W) (ret a).
Proof. intros w c e Hin. by apply elem_of_nil in Hin. Qed.

Lemma propagates_raise {A} (e : Exn) : propagates (W:=W) (@raise W A e).
Proof. intros w c e' Hin. by apply elem_of_nil in Hin. Qed.

Lemma propagates_perform {A} c (h : W -> Outcome A * W) :
  propagates (perform c h).
Proof.
  intros w c' e Hin. unfold perform in *.
  destruct (h w) as [[a|e0] w1]; simpl in *;
    apply list_elem_of_singleton in Hin; by simplify_eq.
Qed.

Lemma propagates_bind {A B} (m : M W A) (k : A -> M W B) :
  propagates m -> (forall a, propagates (k a)) -> propagates (bind m k).
Proof.
  intros Hm Hk w c e Hin. unfold bind in *.
  specialize (Hm w). destruct (m w) as [[[a|e1] w1] t1].
  2: { destruct (Hm c e Hin) as [Heq Hlast]. simpl in *.
       injection Heq as ->. by split. }
  specialize (Hk a w1). destruct (k a w1) as [[o w2] t2]. simpl in *.
  apply elem_of_app in Hin as [Hin|Hin].
  - by destruct (Hm c e Hin) as [? _].
  - destruct (Hk c e Hin) as [Heq Hlast]. simpl in *. split; [done|].
    destruct t2 as [|ev t2]; [done|]. by rewrite last_app_cons.
Qed.

Lemma propagates_for_each {A S} (xs : list A) (body : A -> S -> M W S) acc :
  (forall x s, propagates (body x s)) -> propagates (for_each xs body acc).
Proof.
  intros Hbody. revert acc.
  induction xs as [|x xs IH]; intros acc; cbn [for_each].
  - apply propagates_ret.
  - apply propagates_bind; [apply Hbody | apply IH].
Qed.

Lemma propagates_getitem {A} (registry : gmap string A) key :
  propagates (W:=W) (getitem registry key).
Proof.
  unfold getitem. repeat case_match;
    first [apply propagates_ret | apply propagates_raise].
Qed.

Lemma propagates_py_get v key : propagates (W:=W) (py_get v key).
Proof.
  unfold py_get. destruct v;
    first [apply propagates_ret | apply propagates_raise].
Qed.

Lemma propagates_py_items v : propagates (W:=W) (py_items v).
Proof.
  unfold py_items. destruct v;
    first [apply propagates_ret | apply propagates_raise].
Qed.

Lemma propagates_add_saved_logits item request :
  propagates (add_saved_logits item request).
Proof.
  destruct item as [tag label]. unfold add_saved_logits.
  destruct (String.eqb tag "logits"); [|apply propagates_ret].
  apply propagates_bind; [apply propagates_perform|].
  intros uri. apply propagates_ret.
Qed.

Local Hint Resolve propagates_ret propagates_raise propagates_perform
  propagates_getitem propagates_py_get propagates_py_items
  propagates_add_saved_logits : propagation.

(** [C8] [infer] has no failure path of its own.  Whenever a host call
    made during a run raises (a datastore operation, the removal of the
    temporary file, or the base call), the run ends there with that very
    exception: the failing call is the last event of the trace, so it is
    neither retried nor followed by any other call, and the exception is
    neither caught nor replaced. *)
Theorem infer_propagates_host_errors
    (self : MyApp) (request : gmap string Val) (datastore : Val) (w : W)
    (c : Call) (e : Exn) :
  (c, Some e) ∈ trace_of (infer self request datastore w) ->
  outcome_of (infer self request datastore w) = Raised e /\
  last (trace_of (infer self request datastore w)) = Some (c, Some e).
Proof.
  revert c e. change (fails_last (infer self request datastore w)).
  revert w. change (propagates (infer self request datastore)).
  unfold infer.
  repeat first
    [ apply propagates_bind; [|intros ?]
    | apply propagates_for_each; intros ? ?
    | solve [auto with propagation]
    | case_match ].
Qed.
End Propagation.

(** ** Saving and removing the logits *)

Section Handoff.
Context {W : Type} {host : Host W}.
Implicit Types (self : MyApp) (request : gmap string Val) (w : W).

Lemma has_no_logits_pop (r p : gmap string Val) :
  has_no_logits (VDict (<["params" := VDict (delete "logits" p)]> r)).
Proof.
  unfold has_no_logits, params_of. rewrite lookup_insert_eq.
  eexists. split; [reflexivity | apply lookup_delete_eq].
Qed.

(** [C1] For a request whose selected task has kind SEGMENTATION (tested
    on the request before the base call and on the same dictionary after
    it) and a base result whose [params] hold a logits value, the path of
    the temporary file, which as every path is true as a condition: the
    call returns exactly when the datastore saves the label and the file
    can be removed, and a call that has returned has saved the value as
    the label tagged logits of the request's image with empty metadata,
    has then removed the file at that path, having made no other host call
    after the base call, and returns the base result with the logits entry
    dropped from its [params]. *)
Theorem segmentation_logits_saved_then_removed
    self request datastore w r request1 w1 p logits :
  selected_kind self request = Some SEGMENTATION ->
  host_infer request w = (Returned (VDict r, request1), w1) ->
  selected_kind self request1 = Some SEGMENTATION ->
  r !! "params" = Some (VDict p) ->
  p !! "logits" = Some logits ->
  truthy logits = true ->
  forall result w' t,
    infer self request datastore w = (Returned result, w', t) <->
    saved_then_removed request w1 r p logits result w' t.
Proof.
  intros Hkind Hbase Hkind1 Hparams Hlogits Htrue result w' t.
  apply selected_kind_task in Hkind as ([kind] & Htask & Htype).
  apply selected_kind_task in Hkind1 as ([kind1] & Htask1 & Htype1).
  simpl in Htype, Htype1. subst kind kind1.
  assert (dict_get r "params" = VDict p) as Hp
    by (unfold dict_get; by rewrite Hparams).
  assert (dict_get p "logits" = logits) as Hl
    by (unfold dict_get; by rewrite Hlogits).
  unfold saved_then_removed. split.
  - intros Hrun. run_infer.
    match goal with u : unit |- _ => destruct u end.
    eexists _, _. repeat split; eauto using has_no_logits_pop.
  - intros (label_id & w2 & Hsave & Hunlink & -> & -> & _).
    subst logits. run_infer; reflexivity.
Qed.



End Handoff.

(** ** Runs on the reference host *)

Example segmentation_run_trace :
  trace_of segmentation_run =
  [(super_infer segmentation_request, None);
   (save_label (VStr "spleen_10") logits_file (VStr "logits") (VDict ∅), None);
   (unlink logits_file, None)].
Proof. vm_compute. reflexivity. Qed.

Example segmentation_run_state : state_of segmentation_run = disk_with_logits.
Proof. vm_compute. reflexivity. Qed.

Example scribbles_run_trace :
  trace_of scribbles_run =
  [(get_labels_by_image_id (VStr "spleen_10"), None);
   (get_label_uri (VStr "labels/logits/spleen_10") (VStr "logits"), None);
   (super_infer (<["logits" := VStr "labels/logits/spleen_10"]>
                   scribbles_request), None)].
Proof. vm_compute. reflexivity. Qed.

Example scribbles_run_state : state_of scribbles_run = disk_with_logits.
Proof. vm_compute. reflexivity. Qed.

Example empty_path_run_trace :
  trace_of empty_path_run = [(super_infer segmentation_request, None)].
Proof. vm_compute. reflexivity. Qed.



(** A concrete instance: a request naming a model
    that is not registered. *)
Lemma infer_unknown_model_fails_first_witness :
  selected_task sample_app (sample_request "Unknown") = None /\
  infer (host := mem_host logits_file) sample_app (sample_request "Unknown")
        VNone disk_with_logits
  = (Raised (KeyError (VStr "Unknown")), disk_with_logits, []).
Proof.
  split; [vm_compute; reflexivity|].
  apply (infer_unknown_model_fails_first (host := mem_host logits_file)
           sample_app (sample_request "Unknown") VNone disk_with_logits).
  vm_compute; reflexivity.
Defined.

(** A concrete instance: the segmentation run. *)
Lemma infer_result_has_no_logits_witness :
  has_no_logits
    (VDict (<["label" := VStr "/tmp/seg.nii.gz"]> (<["params" := VDict ∅]> ∅))).
Proof.
  apply (infer_result_has_no_logits (host := mem_host logits_file)
           sample_app segmentation_request VNone empty_disk _
           disk_with_logits (trace_of segmentation_run)).
  vm_compute; reflexivity.
Defined.

(** A concrete instance: the scribbles run
    on a disk that holds the label. *)
Lemma scribbles_request_carries_saved_logits_witness :
  base_calls (trace_of scribbles_run)
  = [<["logits" := VStr "labels/logits/spleen_10"]> scribbles_request] /\
  (<["logits" := VStr "labels/logits/spleen_10"]> scribbles_request)
    !! "logits" = Some (VStr "labels/logits/spleen_10").
Proof.
  apply (scribbles_request_carries_saved_logits (host := mem_host logits_file)
           sample_app scribbles_request VNone disk_with_logits
           {["logits" := VStr "labels/logits/spleen_10"]} disk_with_logits
           (VStr "labels/logits/spleen_10") (VStr "labels/logits/spleen_10")
           disk_with_logits);
    vm_compute; reflexivity.
Defined.

(** A concrete instance: the scribbles
    run on an empty disk. *)
Lemma scribbles_request_unmodified_without_logits_witness :
  base_calls
    (trace_of (infer (host := mem_host logits_file) sample_app
                     scribbles_request VNone empty_disk))
  = [scribbles_request].
Proof.
  apply (scribbles_request_unmodified_without_logits
           (host := mem_host logits_file)
           sample_app scribbles_request VNone empty_disk ∅ empty_disk);
    vm_compute; reflexivity.
Defined.

(** A concrete instance: the label is listed but its
    file is gone, so resolving its URI fails. *)
Lemma infer_propagates_host_errors_witness :
  outcome_of stale_scribbles_run
  = Raised (FileNotFoundError "labels/logits/spleen_10") /\
  last (trace_of stale_scribbles_run)
  = Some (get_label_uri (VStr "labels/logits/spleen_10") (VStr "logits"),
          Some (FileNotFoundError "labels/logits/spleen_10")).
Proof.
  apply (infer_propagates_host_errors (host := mem_host logits_file)
           sample_app scribbles_request VNone disk_with_stale_label).
  replace (trace_of _) with
    [(get_labels_by_image_id (VStr "spleen_10"), @None Exn);
     (get_label_uri (VStr "labels/logits/spleen_10") (VStr "logits"),
      Some (FileNotFoundError "labels/logits/spleen_10"))]
    by (vm_compute; reflexivity).
  apply list_elem_of_further, list_elem_of_here.
Defined.

(** A concrete instance: the segmentation run from an empty disk
    returns, with the label saved and the file removed. *)
Lemma segmentation_logits_saved_then_removed_witness :
  segmentation_run
  = (Returned (VDict (<["label" := VStr "/tmp/seg.nii.gz"]>
                        (<["params" := VDict ∅]> ∅))),
     disk_with_logits, trace_of segmentation_run) /\
  saved_then_removed (host := mem_host logits_file) segmentation_request
    {| labels := ∅; files := {["/tmp/logits.nii.gz"]} |}
    (<["label" := VStr "/tmp/seg.nii.gz"]>
       (<["params" := VDict {["logits" := logits_file]}]> ∅))
    {["logits" := logits_file]} logits_file
    (VDict (<["label" := VStr "/tmp/seg.nii.gz"]> (<["params" := VDict ∅]> ∅)))
    disk_with_logits (trace_of segmentation_run).
Proof.
  assert (segmentation_run
          = (Returned (VDict (<["label" := VStr "/tmp/seg.nii.gz"]>
                                (<["params" := VDict ∅]> ∅))),
             disk_with_logits, trace_of segmentation_run)) as Hrun
    by (vm_compute; reflexivity).
  split; [exact Hrun|].
  apply (segmentation_logits_saved_then_removed (host := mem_host logits_file)
           sample_app segmentation_request VNone empty_disk
           (<["label" := VStr "/tmp/seg.nii.gz"]>
              (<["params" := VDict {["logits" := logits_file]}]> ∅))
           segmentation_request);
    vm_compute; reflexivity.
Defined.



Example consumed_label_file_remains :
  "labels/logits/spleen_10" ∈ files (state_of scribbles_run).
Proof. vm_compute. set_solver. Qed.

(** ** Construction and the registries *)

Lemma init_returned app_dir studies conf infers self :
  __init__ app_dir studies conf infers = Returned self ->
  strtobool (conf_get conf "tta_enabled" "false") = Returned (tta_enabled self)
  /\ py_int (conf_get conf "tta_samples" "5") = Returned (tta_samples self)
  /\ final_model self
     = os_path_join (os_path_join app_dir "model") "model.pt".
Proof.
  unfold __init__.
  destruct (strtobool _) as [flag|e]; [|discriminate].
  destruct (py_int _) as [samples|e]; [|discriminate].
  by intros [= <-].
Qed.

Lemma strtobool_returned val z :
  strtobool val = Returned z ->
  (member (lower val) true_words = true /\ z = 1%Z) \/
  (member (lower val) true_words = false /\
   member (lower val) false_words = true /\ z = 0%Z).
Proof.
  unfold strtobool, true_words, false_words.
  destruct (member (lower val) _); [intros [= <-]; by left|].
  destruct (member (lower val) _); [intros [= <-]; by right|].
  discriminate.
Qed.

Lemma strategies_always self :
  _strategies self !! "random" = Some Random /\
  _strategies self !! "first" = Some MyStrategy.
Proof.
  unfold _strategies, init_strategies.
  destruct (negb _); split; vm_compute; reflexivity.
Qed.

Lemma registries_with_tta self :
  tta_enabled self = 1%Z ->
  _strategies self !! "TTA" = Some TTA /\
  exists m, _scoring_methods self !! "TTA" = Some m /\
            num_samples m = tta_samples self.
Proof.
  intros Hflag. unfold _strategies, _scoring_methods, init_strategies,
    init_scoring_methods. rewrite Hflag. simpl. split.
  - vm_compute; reflexivity.
  - eexists. rewrite lookup_insert_eq. split; reflexivity.
Qed.

Lemma registries_without_tta self :
  tta_enabled self = 0%Z ->
  _strategies self !! "TTA" = None /\ _scoring_methods self !! "TTA" = None.
Proof.
  intros Hflag. unfold _strategies, _scoring_methods, init_strategies,
    init_scoring_methods. rewrite Hflag. simpl.
  split; vm_compute; reflexivity.
Qed.

(** [C6] (amended) Construction succeeds only for a [tta_enabled] value
    (["false"] when the key is absent) that, in lower case, is one of y,
    yes, t, true, on, 1, and then both the strategy registry and the
    scoring registry contain ["TTA"], or one of n, no, f, false, off, 0,
    and then neither does; in particular ["true"] yields both.  Whenever
    construction succeeds the strategies ["random"] and ["first"] are
    registered.  For every other value the constructor raises
    [ValueError]. *)
Theorem tta_registered_for_true_words app_dir studies conf infers :
  let flag := lower (conf_get conf "tta_enabled" "false") in
  (forall self,
     __init__ app_dir studies conf infers = Returned self ->
     ((member flag true_words = true /\
       is_Some (_strategies self !! "TTA") /\
       is_Some (_scoring_methods self !! "TTA")) \/
      (member flag true_words = false /\
       member flag false_words = true /\
       _strategies self !! "TTA" = None /\
       _scoring_methods self !! "TTA" = None)) /\
     _strategies self !! "random" = Some Random /\
     _strategies self !! "first" = Some MyStrategy /\
     (conf !! "tta_enabled" = Some "true" ->
      is_Some (_strategies self !! "TTA") /\
      is_Some (_scoring_methods self !! "TTA"))) /\
  (member flag true_words = false ->
   member flag false_words = false ->
   __init__ app_dir studies conf infers
   = Raised (ValueError "invalid truth value")).
Proof.
  intros flag. split.
  - intros self Hinit.
    apply init_returned in Hinit as (Hflag & _ & _).
    destruct (strategies_always self) as [Hrandom Hfirst].
    assert (tta_enabled self = 1%Z ->
            is_Some (_strategies self !! "TTA") /\
            is_Some (_scoring_methods self !! "TTA")) as Hboth.
    { intros H1. destruct (registries_with_tta self H1) as (Hs & m & Hm & _).
      split; eauto. }
    split; [|split; [done|split; [done|]]].
    + apply strtobool_returned in Hflag as [[Htrue Hz]|(Hnot & Hfalse & Hz)].
      * left. by destruct (Hboth Hz).
      * right. by destruct (registries_without_tta self Hz).
    + intros Hconf. apply Hboth.
      unfold conf_get in Hflag. rewrite Hconf in Hflag.
      by injection Hflag.
  - intros Hnot Hnotf. unfold __init__, strtobool.
    fold flag. unfold true_words, false_words in *.
    by rewrite Hnot, Hnotf.
Qed.

(** [C7] A configuration without [tta_enabled] is read as ["false"]: the
    flag is 0 and neither registry contains ["TTA"].  A configuration
    without [tta_samples] is read as ["5"]: the sample count is 5, and it is
    the [num_samples] of the TTA scoring method, which is registered as soon
    as the flag is set.  With both keys absent the constructor returns. *)
Theorem missing_keys_take_defaults app_dir studies conf infers :
  (conf !! "tta_enabled" = None -> conf !! "tta_samples" = None ->
   exists self, __init__ app_dir studies conf infers = Returned self) /\
  (forall self,
     __init__ app_dir studies conf infers = Returned self ->
     (conf !! "tta_enabled" = None ->
      conf_get conf "tta_enabled" "false" = "false" /\
      tta_enabled self = 0%Z /\
      _strategies self !! "TTA" = None /\
      _scoring_methods self !! "TTA" = None) /\
     (conf !! "tta_samples" = None ->
      conf_get conf "tta_samples" "5" = "5" /\
      tta_samples self = 5%Z /\
      (forall m, _scoring_methods self !! "TTA" = Some m -> num_samples m = 5%Z)
      /\
      (tta_enabled self = 1%Z ->
       exists m, _scoring_methods self !! "TTA" = Some m /\
                 num_samples m = 5%Z))).
Proof.
  split.
  - intros Henabled Hsamples. unfold __init__, conf_get.
    rewrite Henabled, Hsamples. cbn [default].
    rewrite strtobool_false, py_int_5. eauto.
  - intros self Hinit.
    apply init_returned in Hinit as (Hflag & Hcount & _). split.
    + intros Henabled. unfold conf_get in *. rewrite Henabled in *.
      cbn [default] in *. rewrite strtobool_false in Hflag.
      injection Hflag as Hflag. symmetry in Hflag.
      destruct (registries_without_tta self Hflag). by repeat split.
    + intros Hsamples. unfold conf_get in *. rewrite Hsamples in *.
      cbn [default] in *. rewrite py_int_5 in Hcount.
      injection Hcount as Hcount. symmetry in Hcount.
      repeat split; try done.
      * intros m. unfold _scoring_methods, init_scoring_methods.
        destruct (negb _); [|by rewrite lookup_empty].
        rewrite lookup_insert_eq. intros [= <-]. done.
      * intros H1. destruct (registries_with_tta self H1) as (_ & m & Hm & Hn).
        exists m. split; [done|]. by rewrite Hn.
Qed.

(** A concrete instance: the flag set to ["true"]. *)
Lemma tta_registered_for_true_words_witness :
  __init__ "/apps/spleen" "/data" {["tta_enabled" := "true"]} sample_infers
  = Returned tta_app /\
  is_Some (_strategies tta_app !! "TTA") /\
  is_Some (_scoring_methods tta_app !! "TTA").
Proof.
  assert (__init__ "/apps/spleen" "/data" {["tta_enabled" := "true"]}
                   sample_infers = Returned tta_app) as Hinit
    by (vm_compute; reflexivity).
  split; [exact Hinit|].
  apply (proj1 (tta_registered_for_true_words
                  "/apps/spleen" "/data" {["tta_enabled" := "true"]}
                  sample_infers) tta_app Hinit).
  vm_compute; reflexivity.
Defined.

(** A concrete instance: with no key at all the flag
    is 0; with the flag on and no sample count the TTA scoring method is
    given 5 samples. *)
Lemma missing_keys_take_defaults_witness :
  tta_enabled sample_app = 0%Z /\
  exists m, _scoring_methods tta_app !! "TTA" = Some m /\ num_samples m = 5%Z.
Proof.
  assert (__init__ "/apps/spleen" "/data" ∅ sample_infers
          = Returned sample_app) as Hinit by (vm_compute; reflexivity).
  assert (__init__ "/apps/spleen" "/data" {["tta_enabled" := "on"]}
                   sample_infers = Returned tta_app) as Hinit_on
    by (vm_compute; reflexivity).
  split.
  - apply (proj2 (missing_keys_take_defaults "/apps/spleen" "/data" ∅
                    sample_infers) sample_app Hinit).
    vm_compute; reflexivity.
  - apply (proj2 (missing_keys_take_defaults "/apps/spleen" "/data"
                    {["tta_enabled" := "on"]} sample_infers)
             tta_app Hinit_on).
    + vm_compute; reflexivity.
    + reflexivity.
Defined.

(** Counterexample to [C6] as worded: ["yes"] is not ["true"], and both
    registries contain ["TTA"]. *)
Lemma tta_only_for_true_fails :
  ~ tta_only_for_true {["tta_enabled" := "yes"]}.
Proof.
  intros Hclaim.
  assert (__init__ "/apps/spleen" "/data" {["tta_enabled" := "yes"]}
                   sample_infers = Returned tta_app) as Hinit
    by (vm_compute; reflexivity).
  destruct (Hclaim "/apps/spleen" "/data" sample_infers tta_app Hinit)
    as [_ Hother].
  destruct Hother as [Hstrategy _]; [vm_compute; discriminate|].
  vm_compute in Hstrategy. discriminate Hstrategy.
Qed.

(** * Further properties of infer *)

Lemma dict_get_dict (d p : gmap string Val) key :
  dict_get d key = VDict p -> d !! key = Some (VDict p).
Proof. unfold dict_get. destruct (d !! key); simpl; congruence. Qed.

Section InferOrder.
Context {W : Type} {host : Host W}.
Implicit Types (self : MyApp) (request : gmap string Val) (w : W).

(** [X1] In every run the host calls come in the order of the text of
    [infer], each at most once: listing the labels, resolving the logits
    label, the base call, saving the label, removing the file. *)
Theorem infer_host_calls_in_order self request datastore w :
  ascending ((fun ev : Event => phase ev.1)
               <$> trace_of (infer self request datastore w)) = true.
Proof.
  destruct (infer self request datastore w) as [[o w'] t] eqn:Hrun.
  unfold trace_of; simpl. run_infer; reflexivity.
Qed.

(** [X2] A run that returns has delegated to the base call exactly once. *)
Theorem returning_run_delegates_once self request datastore w result w' t :
  infer self request datastore w = (Returned result, w', t) ->
  exists base_request, base_calls t = [base_request].
Proof. intros Hrun. run_infer; eauto. Qed.

(** [X3] For a task of any kind but SCRIBBLES the datastore is not read:
    the base call is the first host call and gets the request as it came,
    whatever labels are saved for the image. *)
Theorem other_kinds_skip_the_datastore self request datastore w kind :
  selected_kind self request = Some kind ->
  kind <> SCRIBBLES ->
  base_calls (trace_of (infer self request datastore w)) = [request] /\
  Forall (fun ev : Event => reads_datastore ev.1 = false)
         (trace_of (infer self request datastore w)).
Proof.
  intros Hkind Hother.
  apply selected_kind_task in Hkind as ([k] & Htask & Htype).
  simpl in Htype. subst k.
  assert (InferType_eqb kind SCRIBBLES = false) as Hnot
    by (by destruct kind).
  destruct (infer self request datastore w) as [[o w'] t] eqn:Hrun.
  unfold trace_of; simpl.
  run_infer; by repeat constructor.
Qed.

End InferOrder.

Section InferEdges.
Context {W : Type} {host : Host W}.
Implicit Types (self : MyApp) (request : gmap string Val) (w : W).

(** [X5] The result a run returns is the result of its own base call with
    the logits entry of [params] removed and nothing else changed.  When
    the lines of [infer] before the base call lead to the request
    [base_request] in the state [w0], and the base call answers there with
    a dictionary [r] whose [params] are [p], the run that returns has made
    those very host calls followed by that base call, and every other key
    of its result and every other key of its [params] is as the base call
    gave it. *)
Theorem result_differs_only_in_logits
    self request datastore w base_request w0 t0 r request1 w1 p result w' t :
  request_for_base self request w = (Returned base_request, w0, t0) ->
  host_infer base_request w0 = (Returned (VDict r, request1), w1) ->
  r !! "params" = Some (VDict p) ->
  infer self request datastore w = (Returned result, w', t) ->
  (exists rest, t = (t0 ++ (super_infer base_request, None) :: rest)%list) /\
  result = VDict (<["params" := VDict (delete "logits" p)]> r) /\
  exists r' p',
    result = VDict r' /\
    r' !! "params" = Some (VDict p') /\
    p' !! "logits" = None /\
    (forall key, key <> "params" -> r' !! key = r !! key) /\
    (forall key, key <> "logits" -> p' !! key = p !! key).
Proof.
  intros Hpre Hbase Hparams Hrun.
  assert (dict_get r "params" = VDict p) as Hp
    by (unfold dict_get; by rewrite Hparams).
  unfold request_for_base in Hpre.
  run_infer;
    (split; [eexists; reflexivity|]); (split; [reflexivity|]);
    eexists _, _; (split; [reflexivity|]);
    (split; [apply lookup_insert_eq|]);
    (split; [apply lookup_delete_eq|]);
    (split; intros key Hkey;
     [by rewrite lookup_insert_ne | by rewrite lookup_delete_ne]).
Qed.

(** [X6] A base result that is not a dictionary holding a [params]
    dictionary makes [infer] raise [AttributeError] right after the base
    call: nothing is saved or removed. *)
Theorem result_without_params_raises
    self request datastore w kind result request1 w1 :
  selected_kind self request = Some kind ->
  kind <> SCRIBBLES ->
  host_infer request w = (Returned (result, request1), w1) ->
  params_of result = None ->
  infer self request datastore w
  = (Raised (AttributeError "get"), w1, [(super_infer request, None)]).
Proof.
  intros Hkind Hother Hbase Hparams.
  apply selected_kind_task in Hkind as ([k] & Htask & Htype).
  simpl in Htype. subst k.
  assert (InferType_eqb kind SCRIBBLES = false) as Hnot
    by (by destruct kind).
  assert (forall r p, result = VDict r -> dict_get r "params" <> VDict p)
    as Hnone.
  { intros r p -> Hp. apply dict_get_dict in Hp.
    unfold params_of in Hparams. by rewrite Hp in Hparams. }
  clear Hparams.
  run_infer; try reflexivity; by edestruct Hnone.
Qed.

(** [X7] When the base result holds no logits entry, or one that is false
    as a condition, a task of any kind but SCRIBBLES makes no host call
    after the base call and returns the base result without the entry; the
    registry is not looked up a second time, so the request the base call
    leaves behind does not matter. *)
Theorem false_logits_are_only_dropped
    self request datastore w kind r request1 w1 p :
  selected_kind self request = Some kind ->
  kind <> SCRIBBLES ->
  host_infer request w = (Returned (VDict r, request1), w1) ->
  r !! "params" = Some (VDict p) ->
  truthy (dict_get p "logits") = false ->
  infer self request datastore w
  = (Returned (VDict (<["params" := VDict (delete "logits" p)]> r)), w1,
     [(super_infer request, None)]).
Proof.
  intros Hkind Hother Hbase Hparams Hfalse.
  apply selected_kind_task in Hkind as ([k] & Htask & Htype).
  simpl in Htype. subst k.
  assert (InferType_eqb kind SCRIBBLES = false) as Hnot
    by (by destruct kind).
  assert (dict_get r "params" = VDict p) as Hp
    by (unfold dict_get; by rewrite Hparams).
  run_infer; reflexivity.
Qed.


(** [X9] When the label has been saved and [unlink] raises, the run ends
    with that exception: the label stays saved, but the caller gets no
    result. *)
Theorem failed_unlink_loses_the_result
    self request datastore w r request1 w1 p logits label_id w2 e w3 :
  selected_kind self request = Some SEGMENTATION ->
  host_infer request w = (Returned (VDict r, request1), w1) ->
  selected_kind self request1 = Some SEGMENTATION ->
  r !! "params" = Some (VDict p) ->
  p !! "logits" = Some logits ->
  truthy logits = true ->
  host_save_label (dict_get request "image") logits (VStr "logits") (VDict ∅)
                  w1 = (Returned label_id, w2) ->
  host_unlink logits w2 = (Raised e, w3) ->
  infer self request datastore w
  = (Raised e, w3,
     [(super_infer request, None);
      (save_label (dict_get request "image") logits (VStr "logits") (VDict ∅),
       None);
      (unlink logits, Some e)]).
Proof.
  intros Hkind Hbase Hkind1 Hparams Hlogits Htrue Hsave Hunlink.
  apply selected_kind_task in Hkind as ([kind] & Htask & Htype).
  apply selected_kind_task in Hkind1 as ([kind1] & Htask1 & Htype1).
  simpl in Htype, Htype1. subst kind kind1.
  assert (dict_get r "params" = VDict p) as Hp
    by (unfold dict_get; by rewrite Hparams).
  assert (dict_get p "logits" = logits) as Hl
    by (unfold dict_get; by rewrite Hlogits).
  subst logits. run_infer; reflexivity.
Qed.

(** [X10] For a SCRIBBLES task, when the datastore raises on listing the
    labels or answers with something that is not a dictionary, the run
    ends there with an exception and the base call is never made. *)
Theorem unlisted_labels_skip_the_base_call
    self request datastore w listing w1 :
  selected_kind self request = Some SCRIBBLES ->
  host_get_labels_by_image_id (dict_get request "image") w = (listing, w1) ->
  (forall d, listing <> Returned (VDict d)) ->
  exists e,
    infer self request datastore w
    = (Raised e, w1,
       [(get_labels_by_image_id (dict_get request "image"),
         raised_by listing)]) /\
    (forall e', listing = Raised e' -> e = e') /\
    (raised_by listing = None -> e = AttributeError "items").
Proof.
  intros Hkind Hlist Hnot.
  apply selected_kind_task in Hkind as ([kind] & Htask & Htype).
  simpl in Htype. subst kind.
  destruct listing as [[| | | |d]|e0]; try (by destruct (Hnot d));
    run_infer; eexists; (split; [reflexivity|]); split; congruence.
Qed.

(** [X11] For a SCRIBBLES task whose image has a label tagged logits that
    the datastore fails to resolve, the run ends with the datastore's
    exception: the base call is not made, not even without the logits. *)
Theorem unresolved_label_skips_the_base_call
    self request datastore w d w1 label e w2 :
  selected_kind self request = Some SCRIBBLES ->
  host_get_labels_by_image_id (dict_get request "image") w
    = (Returned (VDict d), w1) ->
  d !! "logits" = Some label ->
  host_get_label_uri label (VStr "logits") w1 = (Raised e, w2) ->
  infer self request datastore w
  = (Raised e, w2,
     [(get_labels_by_image_id (dict_get request "image"), None);
      (get_label_uri label (VStr "logits"), Some e)]).
Proof.
  intros Hkind Hlist Hd Huri.
  apply selected_kind_task in Hkind as ([kind] & Htask & Htype).
  simpl in Htype. subst kind.
  run_infer; reflexivity.
Qed.
End InferEdges.

(** * Further properties of the construction *)

Lemma lower_ascii_idempotent c : lower_ascii (lower_ascii c) = lower_ascii c.
Proof. by destruct c as [[] [] [] [] [] [] [] []]. Qed.

Lemma lower_idempotent s : lower (lower s) = lower s.
Proof.
  induction s as [|c s IH]; [reflexivity|].
  simpl. by rewrite lower_ascii_idempotent, IH.
Qed.

Lemma strtobool_lower val : strtobool (lower val) = strtobool val.
Proof. unfold strtobool. by rewrite lower_idempotent. Qed.

(** [X12] The [tta_enabled] flag is read without regard to case: writing
    the configured value in lower case changes nothing in what the
    constructor returns or raises. *)
Theorem tta_flag_ignores_case app_dir studies conf infers value :
  conf !! "tta_enabled" = Some value ->
  __init__ app_dir studies (<["tta_enabled" := lower value]> conf) infers
  = __init__ app_dir studies conf infers.
Proof.
  intros Hvalue. unfold __init__, conf_get.
  rewrite lookup_insert_eq, lookup_insert_ne by done.
  rewrite Hvalue. simpl. by rewrite strtobool_lower.
Qed.

Lemma strtobool_raises val e :
  strtobool val = Raised e -> e = ValueError "invalid truth value".
Proof. unfold strtobool. repeat case_match; congruence. Qed.

Lemma space_is_kept c :
  is_space c = true ->
  (N_of_ascii c <? 128)%N = true /\
  ascii_of_code_point (N_of_ascii c) = Some c.
Proof.
  destruct c as [[] [] [] [] [] [] [] []]; intros Hspace;
    vm_compute in Hspace; try discriminate Hspace; split; reflexivity.
Qed.

Lemma blank_is_kept (s : string) :
  Forall (fun c => is_space c = true) (list_ascii_of_string s) ->
  transform_decimal_and_space s = Some s.
Proof.
  unfold transform_decimal_and_space.
  induction s as [|c s IH]; [reflexivity|].
  intros Hblank. apply Forall_cons in Hblank as [Hc Hs].
  destruct (space_is_kept c Hc) as [Hascii Hkept].
  specialize (IH Hs). cbn [code_points]. rewrite Hascii.
  destruct (code_points s) as [cps|]; [|discriminate IH].
  cbn [fmap option_fmap option_map ascii_of_code_points].
  by rewrite Hkept, IH.
Qed.

Lemma blank_is_stripped (s : string) :
  Forall (fun c => is_space c = true) (list_ascii_of_string s) ->
  lstrip s = "".
Proof.
  induction s as [|c s IH]; [reflexivity|].
  intros Hblank. apply Forall_cons in Hblank as [Hc Hs].
  cbn [lstrip]. rewrite Hc. by apply IH.
Qed.

Lemma py_int_blank (s : string) :
  Forall (fun c => is_space c = true) (list_ascii_of_string s) ->
  py_int s = Raised (ValueError "invalid literal for int() with base 10").
Proof.
  intros Hblank. unfold py_int.
  by rewrite (blank_is_kept s Hblank), (blank_is_stripped s Hblank).
Qed.

(** [X13] A [tta_samples] value that is empty, or holds nothing but white
    space, is not replaced by the default ["5"]: the constructor raises
    [ValueError], whatever [tta_enabled] says and so also when TTA is
    switched off. *)
Theorem blank_tta_samples_fails_construction
    app_dir studies conf infers value :
  conf !! "tta_samples" = Some value ->
  Forall (fun c => is_space c = true) (list_ascii_of_string value) ->
  exists msg,
    __init__ app_dir studies conf infers = Raised (ValueError msg).
Proof.
  intros Hvalue Hblank. unfold __init__.
  replace (conf_get conf "tta_samples" "5") with value
    by (unfold conf_get; by rewrite Hvalue).
  rewrite (py_int_blank value Hblank).
  destruct (strtobool _) as [flag|e] eqn:Hflag; [eauto|].
  apply strtobool_raises in Hflag as ->. eauto.
Qed.

Lemma list_ascii_of_string_app (a b : string) :
  list_ascii_of_string (a ++ b)
  = (list_ascii_of_string a ++ list_ascii_of_string b)%list.
Proof. induction a as [|c a IH]; [reflexivity|]. simpl. by rewrite IH. Qed.

Lemma ends_with_slash_model (a : string) : ends_with_slash (a ++ "model") = false.
Proof.
  unfold ends_with_slash. rewrite list_ascii_of_string_app, rev_app_distr.
  reflexivity.
Qed.

Lemma model_not_empty (a : string) : String.eqb (a ++ "model") "" = false.
Proof. by destruct a. Qed.

Lemma os_path_join_model (a : string) :
  exists prefix, os_path_join a "model" = prefix ++ "model".
Proof.
  unfold os_path_join. simpl.
  destruct (_ || _); [by exists a|].
  exists (a ++ "/"). clear.
  induction a as [|c a IH]; [reflexivity|].
  change (String c (a ++ "/" ++ "model") = String c ((a ++ "/") ++ "model")).
  by rewrite IH.
Qed.

Lemma os_path_join_model_pt (a : string) :
  os_path_join (os_path_join a "model") "model.pt"
  = os_path_join a "model" ++ "/model.pt".
Proof.
  destruct (os_path_join_model a) as [prefix ->].
  unfold os_path_join.
  by rewrite model_not_empty, ends_with_slash_model.
Qed.

(** [X14] For every application directory, the model directory is the
    directory joined with [model], and the final model is the file
    [model.pt] inside it: the second join always adds a separator, the
    model directory being neither empty nor ended by one. *)
Theorem final_model_lies_in_model_dir app_dir studies conf infers self :
  __init__ app_dir studies conf infers = Returned self ->
  model_dir self = os_path_join app_dir "model" /\
  final_model self = model_dir self ++ "/model.pt" /\
  mmar self = "clara_pt_spleen_ct_segmentation_1".
Proof.
  unfold __init__.
  destruct (strtobool _) as [flag|e]; [|discriminate].
  destruct (py_int _) as [count|e]; [|discriminate].
  intros [= <-]. cbn [model_dir final_model mmar].
  split; [reflexivity|]. split; [apply os_path_join_model_pt|reflexivity].
Qed.

(** [X15] The two TTA registrations go together, for every value of the
    flag: the strategy registry contains ["TTA"] exactly when the scoring
    registry does, which is exactly when [tta_enabled] is not 0; and no
    name other than ["TTA"], ["random"] and ["first"] is ever registered. *)
Theorem tta_registrations_agree self :
  (is_Some (init_strategies self !! "TTA") <->
   is_Some (init_scoring_methods self !! "TTA")) /\
  (is_Some (init_strategies self !! "TTA") <-> tta_enabled self <> 0%Z) /\
  (forall name, is_Some (init_strategies self !! name) ->
                name = "TTA" \/ name = "random" \/ name = "first") /\
  (forall name, is_Some (init_scoring_methods self !! name) -> name = "TTA").
Proof.
  unfold init_strategies, init_scoring_methods.
  destruct (Z.eqb_spec (tta_enabled self) 0) as [Hz|Hz]; cbn [negb].
  - split; [|split; [|split]].
    + rewrite !lookup_insert_ne, !lookup_empty by done.
      split; by intros [? ?].
    + rewrite !lookup_insert_ne, lookup_empty by done.
      split; [by intros [? ?]|done].
    + intros name. rewrite !lookup_insert_is_Some', lookup_empty.
      intros [<-|[<-|[? ?]]]; by auto.
    + intros name. rewrite lookup_empty. by intros [? ?].
  - split; [|split; [|split]].
    + rewrite !lookup_insert_ne, !lookup_insert_eq by done.
      split; eauto.
    + rewrite !lookup_insert_ne, lookup_insert_eq by done.
      split; eauto.
    + intros name. rewrite !lookup_insert_is_Some', lookup_empty.
      intros [<-|[<-|[<-|[? ?]]]]; by auto.
    + intros name. rewrite lookup_insert_is_Some', lookup_empty.
      intros [<-|[? ?]]; by auto.
Qed.

(** * The registries of tasks *)

Lemma init_infers_is_Some {classes : TaskClasses} (self : MyApp) name :
  is_Some (init_infers self !! name) <->
  name ∈ spleen_infer_names \/
  is_Some (deepgrow_infer_tasks (model_dir self) !! name).
Proof.
  unfold init_infers, dict_update.
  rewrite lookup_union_is_Some, !lookup_insert_is_Some', lookup_empty.
  unfold spleen_infer_names. rewrite !elem_of_cons, elem_of_nil.
  split.
  - intros [Hdeep|Hown]; [by right|]. left.
    repeat (destruct Hown as [<-|Hown]; [by auto 10|]).
    by destruct Hown.
  - intros [Hown|Hdeep]; [|by left]. right.
    repeat (destruct Hown as [->|Hown]; [by auto 10|]).
    done.
Qed.

(** [X16] The inference registry holds the six tasks the file names and the
    deepgrow tasks of the base class, and nothing else; where the base class
    uses one of the six names, its task is the one registered. *)
Theorem registered_infer_names {classes : TaskClasses} (self : MyApp) name :
  (forall task,
     deepgrow_infer_tasks (model_dir self) !! name = Some task ->
     init_infers self !! name = Some task) /\
  (is_Some (init_infers self !! name) <->
   name ∈ spleen_infer_names \/
   is_Some (deepgrow_infer_tasks (model_dir self) !! name)).
Proof.
  split; [|apply init_infers_is_Some].
  intros task Htask. unfold init_infers, dict_update.
  by apply lookup_union_Some_l.
Qed.

(** [X17] With the registry of [init_infers], a request that names one of
    the six tasks of the file always passes the registry lookup of [infer]:
    the run goes on to the host, it does not stop with an empty trace. *)
Theorem registered_names_pass_the_lookup
    {W : Type} {host : Host W} {classes : TaskClasses}
    (self : MyApp) (request : gmap string Val) (datastore : Val) (w : W) name :
  _infers self = init_infers self ->
  name ∈ spleen_infer_names ->
  request !! "model" = Some (VStr name) ->
  trace_of (infer self request datastore w) <> [].
Proof.
  intros Hinfers Hname Hmodel.
  assert (is_Some (selected_task self request)) as [task Htask].
  { unfold selected_task, dict_get. rewrite Hmodel, Hinfers. simpl.
    apply init_infers_is_Some. by left. }
  clear Hinfers Hname Hmodel.
  destruct (infer self request datastore w) as [[o w'] t] eqn:Hrun.
  unfold trace_of; simpl. run_infer; done.
Qed.

(** [X18] The trainer registry holds the one task ["segmentation_spleen"],
    and it publishes to the very file the rest of the application reads:
    the TTA scoring method, when registered, loads the published path with
    the same network, and so does the segmentation task. *)
Theorem trained_model_is_the_served_model
    {classes : TaskClasses} (self : MyApp) :
  exists train,
    init_trainers self !! "segmentation_spleen" = Some train /\
    (forall name, is_Some (init_trainers self !! name) ->
                  name = "segmentation_spleen") /\
    publish_path train = final_model self /\
    (forall m, init_scoring_methods self !! "TTA" = Some m ->
               model m = publish_path train /\
               network m = train_network train) /\
    (deepgrow_infer_tasks (model_dir self) !! "Spleen_Segmentation" = None ->
     init_infers self !! "Spleen_Segmentation"
     = Some (SegmentationWithWriteLogits (publish_path train)
                                         (train_network train))).
Proof.
  eexists. split; [apply lookup_singleton_eq|]. split; [|split; [|split]].
  - intros name [train Htrain]. unfold init_trainers in Htrain.
    by apply lookup_singleton_Some in Htrain as [<- _].
  - reflexivity.
  - intros m. unfold init_scoring_methods.
    destruct (negb _); [|by rewrite lookup_empty].
    rewrite lookup_insert_eq. by intros [= <-].
  - intros Hfree. unfold init_infers, dict_update.
    rewrite lookup_union_r by done. apply lookup_insert_eq.
Qed.

(** * Concrete instances *)

(** A concrete instance: the segmentation run returns after one base
    call. *)
Lemma returning_run_delegates_once_witness :
  exists base_request, base_calls (trace_of segmentation_run) = [base_request].
Proof.
  apply (returning_run_delegates_once (host := mem_host logits_file)
           sample_app segmentation_request VNone empty_disk
           (VDict (<["label" := VStr "/tmp/seg.nii.gz"]>
                     (<["params" := VDict ∅]> ∅)))
           disk_with_logits (trace_of segmentation_run)).
  vm_compute; reflexivity.
Defined.

(** A concrete instance: a deepgrow request on a disk that holds a logits
    label for the image. *)
Lemma other_kinds_skip_the_datastore_witness :
  base_calls
    (trace_of (infer (host := mem_host logits_file) sample_app
                     deepgrow_request VNone disk_with_logits))
  = [deepgrow_request] /\
  Forall (fun ev : Event => reads_datastore ev.1 = false)
    (trace_of (infer (host := mem_host logits_file) sample_app
                     deepgrow_request VNone disk_with_logits)).
Proof.
  apply (other_kinds_skip_the_datastore (host := mem_host logits_file)
           sample_app deepgrow_request VNone disk_with_logits DEEPGROW).
  - vm_compute; reflexivity.
  - intros Heq; discriminate Heq.
Defined.


(** A concrete instance: a scribbles run on a disk that holds the label,
    whose base result has a latency beside the logits in its [params]. *)
Lemma result_differs_only_in_logits_witness :
  VDict (<["label" := VStr "/tmp/seg.nii.gz"]>
           (<["params" := VDict {["latency" := VInt 12]}]> ∅))
  = VDict (<["params" :=
               VDict (delete "logits"
                        (<["latency" := VInt 12]>
                           {["logits" := logits_file]}))]>
             (<["label" := VStr "/tmp/seg.nii.gz"]>
                (<["params" := VDict (<["latency" := VInt 12]>
                                        {["logits" := logits_file]})]> ∅))).
Proof.
  refine (proj1 (proj2 (result_differs_only_in_logits
           (host := stub_host (result_with_logits logits_file) None)
           sample_app scribbles_request VNone disk_with_logits
           (<["logits" := VStr "labels/logits/spleen_10"]> scribbles_request)
           disk_with_logits
           [(get_labels_by_image_id (VStr "spleen_10"), None);
            (get_label_uri (VStr "labels/logits/spleen_10") (VStr "logits"),
             None)]
           (<["label" := VStr "/tmp/seg.nii.gz"]>
              (<["params" := VDict (<["latency" := VInt 12]>
                                      {["logits" := logits_file]})]> ∅))
           (<["logits" := VStr "labels/logits/spleen_10"]> scribbles_request)
           disk_with_logits
           (<["latency" := VInt 12]> {["logits" := logits_file]})
           (VDict (<["label" := VStr "/tmp/seg.nii.gz"]>
                     (<["params" := VDict {["latency" := VInt 12]}]> ∅)))
           disk_with_logits
           [(get_labels_by_image_id (VStr "spleen_10"), None);
            (get_label_uri (VStr "labels/logits/spleen_10") (VStr "logits"),
             None);
            (super_infer (<["logits" := VStr "labels/logits/spleen_10"]>
                            scribbles_request), None)] _ _ _ _)));
    vm_compute; reflexivity.
Defined.

(** A concrete instance: a base result with a label and no [params]. *)
Lemma result_without_params_raises_witness :
  infer (host := stub_host (VDict {["label" := VStr "/tmp/out.nii.gz"]}) None)
        sample_app deepgrow_request VNone empty_disk
  = (Raised (AttributeError "get"), empty_disk,
     [(super_infer deepgrow_request, None)]).
Proof.
  apply (result_without_params_raises
           (host := stub_host (VDict {["label" := VStr "/tmp/out.nii.gz"]})
                              None)
           sample_app deepgrow_request VNone empty_disk DEEPGROW
           (VDict {["label" := VStr "/tmp/out.nii.gz"]}) deepgrow_request).
  - vm_compute; reflexivity.
  - intros Heq; discriminate Heq.
  - reflexivity.
  - vm_compute; reflexivity.
Defined.

(** A concrete instance: a deepgrow run whose base result reports an empty
    logits path. *)
Lemma false_logits_are_only_dropped_witness :
  infer (host := stub_host (result_with_logits (VStr "")) None)
        sample_app deepgrow_request VNone empty_disk
  = (Returned (VDict (<["params" :=
                          VDict (delete "logits"
                                   (<["latency" := VInt 12]>
                                      {["logits" := VStr ""]}))]>
                        (<["label" := VStr "/tmp/seg.nii.gz"]>
                           (<["params" :=
                                VDict (<["latency" := VInt 12]>
                                         {["logits" := VStr ""]})]> ∅)))),
     empty_disk, [(super_infer deepgrow_request, None)]).
Proof.
  apply (false_logits_are_only_dropped
           (host := stub_host (result_with_logits (VStr "")) None)
           sample_app deepgrow_request VNone empty_disk DEEPGROW
           (<["label" := VStr "/tmp/seg.nii.gz"]>
              (<["params" := VDict (<["latency" := VInt 12]>
                                      {["logits" := VStr ""]})]> ∅))
           deepgrow_request empty_disk
           (<["latency" := VInt 12]> {["logits" := VStr ""]})).
  - vm_compute; reflexivity.
  - intros Heq; discriminate Heq.
  - reflexivity.
  - vm_compute; reflexivity.
  - vm_compute; reflexivity.
Defined.


(** A concrete instance: the label is saved and the file cannot be
    removed. *)
Lemma failed_unlink_loses_the_result_witness :
  infer (host := stub_host (result_with_logits logits_file)
                           (Some (HostError 13)))
        sample_app segmentation_request VNone disk_with_temp_file
  = (Raised (HostError 13),
     {| labels := {["spleen_10" := {["logits" := "labels/logits/spleen_10"]}]};
        files := {["labels/logits/spleen_10"]} ∪ {["/tmp/logits.nii.gz"]} |},
     [(super_infer segmentation_request, None);
      (save_label (dict_get segmentation_request "image") logits_file
                  (VStr "logits") (VDict ∅), None);
      (unlink logits_file, Some (HostError 13))]).
Proof.
  eapply (failed_unlink_loses_the_result
           (host := stub_host (result_with_logits logits_file)
                              (Some (HostError 13)))
           sample_app segmentation_request VNone disk_with_temp_file
           (<["label" := VStr "/tmp/seg.nii.gz"]>
              (<["params" := VDict (<["latency" := VInt 12]>
                                      {["logits" := logits_file]})]> ∅))
           segmentation_request disk_with_temp_file
           (<["latency" := VInt 12]> {["logits" := logits_file]})
           logits_file (VStr "labels/logits/spleen_10"));
    vm_compute; reflexivity.
Defined.

(** A concrete instance: a scribbles request whose image is not a string,
    which the datastore refuses. *)
Lemma unlisted_labels_skip_the_base_call_witness :
  exists e,
    infer (host := mem_host logits_file) sample_app
          (<["image" := VInt 3]> scribbles_request) VNone empty_disk
    = (Raised e, empty_disk,
       [(get_labels_by_image_id
           (dict_get (<["image" := VInt 3]> scribbles_request) "image"),
         raised_by (@Raised Val (TypeError "image id")))]) /\
    (forall e', @Raised Val (TypeError "image id") = Raised e' -> e = e') /\
    (raised_by (@Raised Val (TypeError "image id")) = None ->
     e = AttributeError "items").
Proof.
  apply (unlisted_labels_skip_the_base_call (host := mem_host logits_file)
           sample_app (<["image" := VInt 3]> scribbles_request) VNone
           empty_disk (Raised (TypeError "image id")) empty_disk).
  - vm_compute; reflexivity.
  - vm_compute; reflexivity.
  - intros d Heq; discriminate Heq.
Defined.

(** A concrete instance: the label is listed but its file is gone. *)
Lemma unresolved_label_skips_the_base_call_witness :
  stale_scribbles_run
  = (Raised (FileNotFoundError "labels/logits/spleen_10"),
     disk_with_stale_label,
     [(get_labels_by_image_id (dict_get scribbles_request "image"), None);
      (get_label_uri (VStr "labels/logits/spleen_10") (VStr "logits"),
       Some (FileNotFoundError "labels/logits/spleen_10"))]).
Proof.
  apply (unresolved_label_skips_the_base_call (host := mem_host logits_file)
           sample_app scribbles_request VNone disk_with_stale_label
           {["logits" := VStr "labels/logits/spleen_10"]}
           disk_with_stale_label);
    vm_compute; reflexivity.
Defined.

(** A concrete instance: the flag written in capitals. *)
Lemma tta_flag_ignores_case_witness :
  __init__ "/apps/spleen" "/data"
           (<["tta_enabled" := "true"]> {["tta_enabled" := "TRUE"]})
           sample_infers
  = __init__ "/apps/spleen" "/data" {["tta_enabled" := "TRUE"]} sample_infers.
Proof.
  apply (tta_flag_ignores_case "/apps/spleen" "/data"
           {["tta_enabled" := "TRUE"]} sample_infers "TRUE").
  vm_compute; reflexivity.
Defined.

(** A concrete instance: a sample count of two spaces, TTA switched
    off. *)
Lemma blank_tta_samples_fails_construction_witness :
  exists msg,
    __init__ "/apps/spleen" "/data"
             (<["tta_samples" := "  "]> {["tta_enabled" := "false"]})
             sample_infers
    = Raised (ValueError msg).
Proof.
  apply (blank_tta_samples_fails_construction "/apps/spleen" "/data"
           (<["tta_samples" := "  "]> {["tta_enabled" := "false"]})
           sample_infers "  ").
  - vm_compute; reflexivity.
  - repeat constructor.
Defined.

(** A concrete instance: the application built from an empty
    configuration. *)
Lemma final_model_lies_in_model_dir_witness :
  model_dir sample_app = os_path_join "/apps/spleen" "model" /\
  final_model sample_app = model_dir sample_app ++ "/model.pt" /\
  mmar sample_app = "clara_pt_spleen_ct_segmentation_1".
Proof.
  apply (final_model_lies_in_model_dir "/apps/spleen" "/data" ∅ sample_infers
           sample_app).
  vm_compute; reflexivity.
Defined.

(** A concrete instance: a request for MIDeepSeg on the full registry. *)
Lemma registered_names_pass_the_lookup_witness :
  trace_of (infer (host := mem_host logits_file) full_app
                  (sample_request "MIDeepSeg") VNone empty_disk) <> [].
Proof.
  apply (registered_names_pass_the_lookup (host := mem_host logits_file)
           (classes := sample_classes)
           full_app (sample_request "MIDeepSeg") VNone empty_disk "MIDeepSeg").
  - vm_compute; reflexivity.
  - unfold spleen_infer_names.
    do 2 apply list_elem_of_further. apply list_elem_of_here.
  - vm_compute; reflexivity.
Defined.
